(** * The [culture_ship] resource of terraform-provider-fun-names

  A shallow embedding of [internal/provider/resource_culture_ship.go]
  together with the parts of its collaborators that the resource calls
  into: Go's [strings.ToLower] and [fmt.Sprintf], the framework's
  [types.String] / [types.Map] values and schema defaults, and the
  [spaceships] package (random source initializer and name generator).

  Strings are byte strings; attribute values and corpus entries are taken
  to be ASCII text, on which [strings.ToLower] shifts the bytes ['A'..'Z']
  by 32 and leaves every other byte alone. *)

From Stdlib Require Import Ascii String NArith.
From stdpp Require Import base option list strings gmap.

(** ** Go's [strings] and [fmt], as far as the resource uses them *)

Module GoStrings.

(** ['A' <= c && c <= 'Z'] *)
Definition isUpperByte (c : ascii) : bool :=
  let n := N_of_ascii c in ((65 <=? n) && (n <=? 90))%N.

(** [c += 'a' - 'A'] for an upper-case byte. *)
Definition lowerByte (c : ascii) : ascii :=
  if isUpperByte c then ascii_of_N (N_of_ascii c + 32) else c.

(** [strings.ToLower] on ASCII text. *)
Fixpoint ToLower (s : string) : string :=
  match s with
  | EmptyString => EmptyString
  | String c rest => String (lowerByte c) (ToLower rest)
  end.

(** A string is entirely lower-case when it holds no upper-case byte. *)
Fixpoint isLower (s : string) : bool :=
  match s with
  | EmptyString => true
  | String c rest => negb (isUpperByte c) && isLower rest
  end.

(** [fmt.Sprintf("%s%s%s", a, b, c)] *)
Definition Sprintf3 (a b c : string) : string := a +:+ b +:+ c.

End GoStrings.

(** ** Framework values: [types.String], [types.Map], diagnostics *)

Module types.

(** A [types.String] is null, unknown, or a known value. The zero value
    of the Go struct is null. *)
Inductive String : Type :=
| StringNull
| StringUnknown
| StringValue (s : string).

(** [ValueString] returns the known value, and [""] for null or
    unknown. *)
Definition ValueString (v : String) : string :=
  match v with
  | StringValue s => s
  | StringNull | StringUnknown => ""
  end.

Definition IsNull (v : String) : bool :=
  match v with StringNull => true | _ => false end.

Definition IsKnown (v : String) : bool :=
  match v with StringValue _ => true | _ => false end.

(** A [types.Map] with [ElementType: types.StringType]. *)
Inductive Map : Type :=
| MapNull
| MapUnknown
| MapValue (elements : gmap string String).

End types.

Module diag.

Inductive Severity : Type := SeverityError | SeverityWarning.

Record Diagnostic : Type := mkDiagnostic {
  severity : Severity;
  summary : string
}.

Definition Diagnostics : Type := list Diagnostic.

Definition isError (d : Diagnostic) : bool :=
  match severity d with SeverityError => true | SeverityWarning => false end.

Definition HasError (ds : Diagnostics) : bool := existsb isError ds.

(** [Diagnostics.Append] *)
Definition Append (ds more : Diagnostics) : Diagnostics := (ds ++ more)%list.

End diag.

(** ** The [spaceships] package: random source and name generator *)

Module spaceships.

(** Modelled from the spec: the process-wide random source of section 4.1,
    whose Go source is not among the files of the resource. It is the
    injectable source of the design notes: a sequence of raw values, the
    position of the next value to consume, and whether the source has left
    its deterministic default. *)
Record RandSource : Type := mkRandSource {
  nonDeterministic : bool;
  sequence : nat -> nat;
  position : nat
}.

(** What the process can observe of its entropy (clock, OS) at one call:
    the sequence a freshly seeded source would produce. *)
Definition Entropy : Type := nat -> nat.

(** The calls made into the package, oldest first. *)
Inductive Call : Type :=
| CalledNonDeterministicMode
| CalledGenerate (separator : string).

(** Process-wide state: the word corpus, the random source, and the record
    of calls into the package. *)
Record World : Type := mkWorld {
  corpus : list string;
  rng : RandSource;
  calls : list Call
}.

Inductive Error : Type := EmptyCorpus.

(** A call either returns a value or fails; both leave a world behind. *)
Inductive Result (A : Type) : Type :=
| Ok (a : A) (w : World)
| Fail (e : Error) (w : World).

Arguments Ok {A} a w.
Arguments Fail {A} e w.

Definition M (A : Type) : Type := World -> Result A.

Definition ret {A : Type} (a : A) : M A := fun w => Ok a w.

Definition bind {A B : Type} (m : M A) (k : A -> M B) : M B :=
  fun w =>
    match m w with
    | Ok a w' => k a w'
    | Fail e w' => Fail e w'
    end.

Definition worldOf {A : Type} (r : Result A) : World :=
  match r with Ok _ w => w | Fail _ w => w end.

Definition valueOf {A : Type} (r : Result A) : option A :=
  match r with Ok a _ => Some a | Fail _ _ => None end.

Definition logCall (c : Call) (w : World) : World :=
  {| corpus := corpus w; rng := rng w; calls := (calls w ++ [c])%list |}.

Definition setRng (r : RandSource) (w : World) : World :=
  {| corpus := corpus w; rng := r; calls := calls w |}.

(** Modelled from the spec: consuming one value moves the position on and
    touches nothing else. *)
Definition advance (r : RandSource) : RandSource :=
  {| nonDeterministic := nonDeterministic r;
     sequence := sequence r;
     position := S (position r) |}.

(** Modelled from the spec: an index below [n] from the current state of
    the source, advancing it. *)
Definition Intn (n : nat) (r : RandSource) : nat * RandSource :=
  (sequence r (position r) mod n, advance r).

(** Modelled from the spec: [EnsureNonDeterministic] on the source. The
    first call switches the source to a sequence seeded from the entropy;
    later calls are no-ops. *)
Definition ensureNonDeterministic (entropy : Entropy) (r : RandSource)
  : RandSource :=
  if nonDeterministic r then r
  else {| nonDeterministic := true; sequence := entropy; position := 0 |}.

(** Modelled from the spec: [NonDeterministicMode], the initializer the
    resource calls; it has no inputs but the process entropy and returns
    nothing. *)
Definition NonDeterministicMode (entropy : Entropy) : M unit :=
  fun w =>
    Ok tt (setRng (ensureNonDeterministic entropy (rng w))
                  (logCall CalledNonDeterministicMode w)).


(** Modelled from the spec: the corpus entry the source selects. *)
Definition selectWord (words : list string) (r : RandSource)
  : option string :=
  words !! fst (Intn (length words) r).

(** Modelled from the spec: [Generate] of section 4.2. One entry is
    selected with the current state of the source, which advances; the
    entry is lower-cased and returned. An empty corpus is the [EmptyCorpus]
    failure. The separator plays no part in a single-word name. *)
Definition Generate (separator : string) : M string :=
  fun w =>
    let w1 := logCall (CalledGenerate separator) w in
    match corpus w1 with
    | [] => Fail EmptyCorpus w1
    | _ :: _ =>
        match selectWord (corpus w1) (rng w1) with
        | Some word =>
            Ok (GoStrings.ToLower word)
               (setRng (snd (Intn (length (corpus w1)) (rng w1))) w1)
        | None => Fail EmptyCorpus w1
        end
    end.

End spaceships.

#[global] Instance M_ret : MRet spaceships.M := @spaceships.ret.
#[global] Instance M_bind : MBind spaceships.M :=
  fun A B k m => spaceships.bind m k.

(** ** The resource: [internal/provider/resource_culture_ship.go] *)

Module provider.

Import types.
Export spaceships.

(** [cultureShipModelV0] *)
Record cultureShipModelV0 : Type := mkModel {
  ID : types.String;
  Keepers : types.Map;
  Prefix : types.String;
  Separator : types.String
}.

(** *** Schema *)

Inductive PlanModifier : Type :=
| RequiresReplaceIfValuesNotNull
| RequiresReplace
| UseStateForUnknown.

Inductive AttributeKind : Type := MapAttribute | StringAttribute.

Record Attribute : Type := mkAttribute {
  Kind : AttributeKind;
  Optional : bool;
  Computed : bool;
  Default : option string;
  PlanModifiers : list PlanModifier
}.

(** The [Attributes] of [Schema], keyed by attribute name. *)
Definition Schema : gmap string Attribute :=
  <["keepers" := {| Kind := MapAttribute; Optional := true; Computed := false;
                    Default := None;
                    PlanModifiers := [RequiresReplaceIfValuesNotNull] |}]>
  (<["prefix" := {| Kind := StringAttribute; Optional := true;
                    Computed := false; Default := None;
                    PlanModifiers := [RequiresReplace] |}]>
  (<["separator" := {| Kind := StringAttribute; Optional := true;
                       Computed := true; Default := Some "-";
                       PlanModifiers := [RequiresReplace] |}]>
  (<["id" := {| Kind := StringAttribute; Optional := false; Computed := true;
                Default := None;
                PlanModifiers := [UseStateForUnknown] |}]> ∅))).

(** The framework's planning of a string attribute with no prior state: a
    null configuration value takes the attribute's static default; without
    a default a computed attribute is unknown until the resource sets it;
    a configured value is planned as it is. *)
Definition planString (a : Attribute) (config : types.String)
  : types.String :=
  match config with
  | StringNull =>
      match Default a with
      | Some d => StringValue d
      | None => if Computed a then StringUnknown else StringNull
      end
  | v => v
  end.

Definition planAttribute (name : string) (config : types.String)
  : types.String :=
  match Schema !! name with
  | Some a => planString a config
  | None => config
  end.

(** The plan the framework hands to [Create] for a configuration, which is
    an object of the same shape whose [id] is null. *)
Definition planCreate (config : cultureShipModelV0) : cultureShipModelV0 :=
  {| ID := planAttribute "id" (ID config);
     Keepers := Keepers config;
     Prefix := planAttribute "prefix" (Prefix config);
     Separator := planAttribute "separator" (Separator config) |}.

(** *** Requests and responses *)

(** [resource.CreateRequest]: [req.Plan]. *)
Record CreateRequest : Type := mkCreateRequest {
  CreatePlan : cultureShipModelV0
}.

(** [resource.UpdateRequest]: [req.Plan] and the prior [req.State]. *)
Record UpdateRequest : Type := mkUpdateRequest {
  UpdatePlan : cultureShipModelV0;
  UpdateState : option cultureShipModelV0
}.

(** [resource.ReadRequest]: [req.State]. *)
Record ReadRequest : Type := mkReadRequest {
  ReadState : option cultureShipModelV0
}.

(** [resource.DeleteRequest]: [req.State]. *)
Record DeleteRequest : Type := mkDeleteRequest {
  DeleteState : option cultureShipModelV0
}.

(** The four responses carry the same two fields: [resp.State], which is
    [None] while no state is set, and [resp.Diagnostics]. *)
Record Response : Type := mkResponse {
  State : option cultureShipModelV0;
  Diagnostics : diag.Diagnostics
}.

Definition CreateResponse : Type := Response.
Definition ReadResponse : Type := Response.
Definition UpdateResponse : Type := Response.
Definition DeleteResponse : Type := Response.

(** The responses the framework passes in: no diagnostics; no state for
    [Create], the prior state for the other three. *)
Definition newCreateResponse : CreateResponse :=
  {| State := None; Diagnostics := [] |}.

Definition newUpdateResponse (req : UpdateRequest) : UpdateResponse :=
  {| State := UpdateState req; Diagnostics := [] |}.

Definition newReadResponse (req : ReadRequest) : ReadResponse :=
  {| State := ReadState req; Diagnostics := [] |}.

Definition newDeleteResponse (req : DeleteRequest) : DeleteResponse :=
  {| State := DeleteState req; Diagnostics := [] |}.

(** [Plan.Get(ctx, &model)]: the model has one framework-typed field per
    attribute of the schema, so the conversion reports nothing. *)
Definition PlanGet (plan : cultureShipModelV0)
  : cultureShipModelV0 * diag.Diagnostics :=
  (plan, []).

(** [State.Set(ctx, model)], likewise. *)
Definition StateSet (model : cultureShipModelV0)
  : option cultureShipModelV0 * diag.Diagnostics :=
  (Some model, []).

Definition appendDiagnostics (resp : Response) (ds : diag.Diagnostics)
  : Response :=
  {| State := State resp; Diagnostics := diag.Append (Diagnostics resp) ds |}.

Definition setPrefix (v : types.String) (m : cultureShipModelV0)
  : cultureShipModelV0 :=
  {| ID := ID m; Keepers := Keepers m; Prefix := v;
     Separator := Separator m |}.

Definition setID (v : types.String) (m : cultureShipModelV0)
  : cultureShipModelV0 :=
  {| ID := v; Keepers := Keepers m; Prefix := Prefix m;
     Separator := Separator m |}.

(** *** Create *)

Definition Create (entropy : Entropy) (req : CreateRequest)
  (resp : CreateResponse) : M CreateResponse :=
  NonDeterministicMode entropy;;
  let '(plan, diags) := PlanGet (CreatePlan req) in
  let resp := appendDiagnostics resp diags in
  if diag.HasError (Diagnostics resp) then mret resp
  else
    let separator := ValueString (Separator plan) in
    let prefix := ValueString (Prefix plan) in
    generated ← Generate separator;
    let ship := GoStrings.ToLower generated in
    let pn := {| ID := StringNull; Keepers := Keepers plan;
                 Prefix := StringNull;
                 Separator := StringValue separator |} in
    let '(ship, pn) :=
      if negb (String.eqb prefix "")
      then (GoStrings.Sprintf3 prefix separator ship,
            setPrefix (StringValue prefix) pn)
      else (ship, setPrefix StringNull pn) in
    let pn := setID (StringValue ship) pn in
    let '(state, diags) := StateSet pn in
    let resp := {| State := state; Diagnostics := Diagnostics resp |} in
    mret (appendDiagnostics resp diags).

(** *** Read, Update, Delete *)

Definition Read (req : ReadRequest) (resp : ReadResponse) : M ReadResponse :=
  mret resp.

Definition Update (req : UpdateRequest) (resp : UpdateResponse)
  : M UpdateResponse :=
  let '(model, diags) := PlanGet (UpdatePlan req) in
  let resp := appendDiagnostics resp diags in
  if diag.HasError (Diagnostics resp) then mret resp
  else
    let '(state, diags) := StateSet model in
    let resp := {| State := state; Diagnostics := Diagnostics resp |} in
    mret (appendDiagnostics resp diags).

Definition Delete (req : DeleteRequest) (resp : DeleteResponse)
  : M DeleteResponse :=
  mret resp.

(** The name a response stores as the resource's id. *)
Definition storedID (resp : Response) : option string :=
  match State resp with
  | Some st =>
      match ID st with
      | StringValue s => Some s
      | _ => None
      end
  | None => None
  end.

(** The name a [Create] request stores, if it stores one. *)
Definition createdName (entropy : Entropy) (req : CreateRequest) (w : World)
  : option string :=
  valueOf (Create entropy req newCreateResponse w) ≫= storedID.

(** The world after a run of calls to the initializer, one per entropy
    reading. *)
Fixpoint initializeMany (readings : list Entropy) (w : World) : World :=
  match readings with
  | [] => w
  | e :: rest => initializeMany rest (worldOf (NonDeterministicMode e w))
  end.

(** The world a [Create] request leaves behind when a word is selected. *)
Definition worldAfterCreate (e : Entropy) (separator : string) (w : World)
  : World :=
  {| corpus := corpus w;
     rng := advance (ensureNonDeterministic e (rng w));
     calls := ((calls w ++ [CalledNonDeterministicMode])
                 ++ [CalledGenerate separator])%list |}.

(** The state a [Create] request stores when [word] is selected. *)
Definition stateAfterCreate (plan : cultureShipModelV0) (word : string)
  : cultureShipModelV0 :=
  let separator := ValueString (Separator plan) in
  let prefix := ValueString (Prefix plan) in
  {| ID := StringValue (if String.eqb prefix "" then GoStrings.ToLower word
                        else prefix +:+ separator +:+ GoStrings.ToLower word);
     Keepers := Keepers plan;
     Prefix := if String.eqb prefix "" then StringNull
               else StringValue prefix;
     Separator := StringValue separator |}.

(** *** Sample data *)

Definition demoSource : RandSource :=
  {| nonDeterministic := false; sequence := fun i => 7 * i + 1;
     position := 0 |}.

Definition demoEntropy : Entropy := fun i => i + 4.

Definition demoWorld : World :=
  {| corpus := ["Mistake Not"; "Sleeper Service"; "Grey Area"];
     rng := demoSource;
     calls := [] |}.

Definition emptyWorld : World :=
  {| corpus := []; rng := demoSource; calls := [] |}.

Definition seededWorld : World :=
  {| corpus := ["Mistake Not"; "Sleeper Service"; "Grey Area"];
     rng := {| nonDeterministic := true; sequence := demoEntropy;
               position := 2 |};
     calls := [CalledNonDeterministicMode] |}.

Definition seededWorldLater : World :=
  {| corpus := corpus seededWorld;
     rng := rng seededWorld;
     calls := [CalledNonDeterministicMode; CalledNonDeterministicMode] |}.

Definition otherEntropy : Entropy := fun _ => 0.

Definition demoConfig : cultureShipModelV0 :=
  {| ID := StringNull; Keepers := MapNull; Prefix := StringValue "HMS";
     Separator := StringNull |}.

Definition keptConfig : cultureShipModelV0 :=
  {| ID := StringNull;
     Keepers := MapValue {["region" := StringValue "eu"]};
     Prefix := StringValue "HMS";
     Separator := StringValue "-" |}.

Definition bareConfig : cultureShipModelV0 :=
  {| ID := StringNull; Keepers := MapNull; Prefix := StringNull;
     Separator := StringNull |}.

(** *** Metadata *)

(** [resource.MetadataRequest]: [req.ProviderTypeName]. *)
Record MetadataRequest : Type := mkMetadataRequest {
  ProviderTypeName : string
}.

(** [resource.MetadataResponse]: [resp.TypeName]. *)
Record MetadataResponse : Type := mkMetadataResponse {
  TypeName : string
}.

Definition Metadata (req : MetadataRequest) (resp : MetadataResponse)
  : MetadataResponse :=
  {| TypeName := ProviderTypeName req +:+ "_culture_ship" |}.

(** The [tfsdk] tags of the fields of [cultureShipModelV0]. *)
Definition modelFields : list string :=
  ["id"; "keepers"; "prefix"; "separator"].

(** A response that already carries an error, and one with a warning. *)
Definition failedResponse : Response :=
  {| State := None;
     Diagnostics := [diag.mkDiagnostic diag.SeverityError "plan rejected"] |}.

Definition warnedResponse : Response :=
  {| State := Some keptConfig;
     Diagnostics := [diag.mkDiagnostic diag.SeverityWarning "deprecated"] |}.

End provider.

(** * Properties *)

(** ** Lower-casing *)

Module GoStringsFacts.

Import GoStrings.

Lemma lowerByte_not_upper (c : ascii) : isUpperByte (lowerByte c) = false.
Proof. destruct c as [[] [] [] [] [] [] [] []]; reflexivity. Qed.

Lemma lowerByte_fixes_lower (c : ascii) :
  isUpperByte c = false -> lowerByte c = c.
Proof. unfold lowerByte; intros ->; reflexivity. Qed.

Lemma ToLower_isLower (s : string) : isLower (ToLower s) = true.
Proof.
  induction s as [|c rest IH]; simpl; [reflexivity|].
  rewrite lowerByte_not_upper; exact IH.
Qed.

Lemma isLower_ToLower (s : string) : isLower s = true -> ToLower s = s.
Proof.
  induction s as [|c rest IH]; simpl; [reflexivity|].
  intros [Hc Hrest]%andb_prop.
  apply negb_true_iff in Hc.
  rewrite (lowerByte_fixes_lower c Hc), (IH Hrest); reflexivity.
Qed.

Lemma ToLower_idempotent (s : string) : ToLower (ToLower s) = ToLower s.
Proof. apply isLower_ToLower, ToLower_isLower. Qed.

Lemma append_nil (b : string) : "" +:+ b = b.
Proof. reflexivity. Qed.

Lemma append_cons (c : ascii) (a b : string) :
  String c a +:+ b = String c (a +:+ b).
Proof. reflexivity. Qed.

Lemma isLower_append (a b : string) :
  isLower (a +:+ b) = isLower a && isLower b.
Proof.
  induction a as [|c rest IH].
  - rewrite append_nil; reflexivity.
  - rewrite append_cons; simpl.
    rewrite IH, andb_assoc; reflexivity.
Qed.

Lemma length_append (a b : string) :
  String.length (a +:+ b) = String.length a + String.length b.
Proof.
  induction a as [|c a IH]; [reflexivity|].
  rewrite append_cons; simpl. rewrite IH; reflexivity.
Qed.



Lemma ToLower_empty_iff (s : string) : ToLower s = "" <-> s = "".
Proof. destruct s; simpl; split; congruence. Qed.

Lemma append_empty_iff (a b : string) : a +:+ b = "" <-> a = "" /\ b = "".
Proof.
  destruct a as [|c a]; [rewrite append_nil | rewrite append_cons]; split.
  - intros ->; split; reflexivity.
  - intros [_ ->]; reflexivity.
  - discriminate.
  - intros [? _]; discriminate.
Qed.

End GoStringsFacts.

(** ** The random source and the generator *)

Module spaceshipsFacts.

Import spaceships GoStrings.

Lemma selectWord_nonempty (words : list string) (r : RandSource) :
  words <> [] -> exists word, selectWord words r = Some word.
Proof.
  intros Hne. unfold selectWord, Intn; simpl.
  apply lookup_lt_is_Some_2, Nat.mod_upper_bound.
  destruct words; [congruence | discriminate].
Qed.

Lemma selectWord_elem (words : list string) (r : RandSource) (word : string) :
  selectWord words r = Some word -> word ∈ words.
Proof. unfold selectWord; apply list_elem_of_lookup_2. Qed.


Lemma selectWord_some_nonempty (words : list string) (r : RandSource)
  (word : string) :
  selectWord words r = Some word -> words <> [].
Proof. intros H ->. discriminate H. Qed.

(** Whether a value is consumed or not, the selection reads only the
    sequence and the position of the source. *)
Lemma selectWord_reads_next (words : list string) (r1 r2 : RandSource) :
  sequence r1 (position r1) = sequence r2 (position r2) ->
  selectWord words r1 = selectWord words r2.
Proof. unfold selectWord, Intn; simpl; intros ->; reflexivity. Qed.

Lemma Generate_empty (separator : string) (w : World) :
  corpus w = [] ->
  Generate separator w
  = Fail EmptyCorpus (logCall (CalledGenerate separator) w).
Proof. unfold Generate; simpl; intros ->; reflexivity. Qed.

Lemma Generate_selected (separator : string) (w : World) (word : string) :
  selectWord (corpus w) (rng w) = Some word ->
  Generate separator w
  = Ok (ToLower word)
       (setRng (advance (rng w)) (logCall (CalledGenerate separator) w)).
Proof.
  intros Hsel. unfold Generate; simpl.
  destruct (corpus w) as [|first rest] eqn:Hc.
  - discriminate Hsel.
  - rewrite Hsel; reflexivity.
Qed.

(** Every call of the generator is recorded, whether it returns or fails. *)
Lemma Generate_logged (separator : string) (w : World) :
  calls (worldOf (Generate separator w))
  = (calls w ++ [CalledGenerate separator])%list.
Proof.
  unfold Generate; simpl.
  destruct (corpus w) as [|first rest]; [reflexivity|].
  destruct (selectWord _ _); reflexivity.
Qed.

(** The generator leaves the corpus alone, and of the source it changes
    the position at most. *)
Lemma Generate_frame (separator : string) (w : World) :
  corpus (worldOf (Generate separator w)) = corpus w /\
  sequence (rng (worldOf (Generate separator w))) = sequence (rng w) /\
  nonDeterministic (rng (worldOf (Generate separator w)))
  = nonDeterministic (rng w).
Proof.
  unfold Generate; simpl.
  destruct (corpus w) as [|first rest] eqn:Hc; simpl; [by rewrite Hc|].
  destruct (selectWord _ _); simpl; by rewrite Hc.
Qed.

Lemma ensureNonDeterministic_seeded (e : Entropy) (r : RandSource) :
  nonDeterministic (ensureNonDeterministic e r) = true.
Proof.
  unfold ensureNonDeterministic.
  destruct (nonDeterministic r) eqn:Hr; [exact Hr | reflexivity].
Qed.

Lemma ensureNonDeterministic_noop (e : Entropy) (r : RandSource) :
  nonDeterministic r = true -> ensureNonDeterministic e r = r.
Proof. unfold ensureNonDeterministic; intros ->; reflexivity. Qed.

Lemma ensureNonDeterministic_twice (e1 e2 : Entropy) (r : RandSource) :
  ensureNonDeterministic e2 (ensureNonDeterministic e1 r)
  = ensureNonDeterministic e1 r.
Proof. apply ensureNonDeterministic_noop, ensureNonDeterministic_seeded. Qed.

End spaceshipsFacts.

(** ** The resource *)

Module providerFacts.

Import types GoStrings provider GoStringsFacts spaceshipsFacts.

Lemma Create_selected (e : Entropy) (req : CreateRequest) (w : World)
  (word : string) :
  selectWord (corpus w) (ensureNonDeterministic e (rng w)) = Some word ->
  Create e req newCreateResponse w
  = Ok {| State := Some (stateAfterCreate (CreatePlan req) word);
          Diagnostics := [] |}
       (worldAfterCreate e (ValueString (Separator (CreatePlan req))) w).
Proof.
  intros Hsel.
  unfold Create, mbind, M_bind, bind, NonDeterministicMode; simpl.
  rewrite (Generate_selected _ _ word) by exact Hsel.
  unfold stateAfterCreate, worldAfterCreate, Sprintf3; simpl.
  rewrite ToLower_idempotent.
  destruct (String.eqb _ ""); reflexivity.
Qed.

Lemma Create_empty (e : Entropy) (req : CreateRequest) (w : World) :
  corpus w = [] ->
  Create e req newCreateResponse w
  = Fail EmptyCorpus
      {| corpus := corpus w;
         rng := ensureNonDeterministic e (rng w);
         calls := ((calls w ++ [CalledNonDeterministicMode])
                     ++ [CalledGenerate
                           (ValueString (Separator (CreatePlan req)))])%list |}.
Proof.
  intros Hc.
  unfold Create, mbind, M_bind, bind, NonDeterministicMode; simpl.
  rewrite Generate_empty by exact Hc. reflexivity.
Qed.

Lemma storedID_selected (e : Entropy) (req : CreateRequest) (w : World)
  (word : string) :
  selectWord (corpus w) (ensureNonDeterministic e (rng w)) = Some word ->
  createdName e req w
  = Some (if String.eqb (ValueString (Prefix (CreatePlan req))) ""
          then ToLower word
          else ValueString (Prefix (CreatePlan req))
                 +:+ ValueString (Separator (CreatePlan req))
                 +:+ ToLower word).
Proof.
  intros Hsel. unfold createdName.
  rewrite (Create_selected e req w word Hsel). reflexivity.
Qed.

Lemma eqb_empty_true (s : string) : s = "" -> String.eqb s "" = true.
Proof. intros ->; reflexivity. Qed.

Lemma eqb_empty_false (s : string) : s <> "" -> String.eqb s "" = false.
Proof. intros Hne. apply String.eqb_neq, Hne. Qed.

(** A plan for a configuration without unknown values has a known
    separator: the static default of the schema fills in for null. *)
Lemma planCreate_separator_known (config : cultureShipModelV0) :
  Separator config <> StringUnknown ->
  IsKnown (Separator (planCreate config)) = true.
Proof.
  intros Hk. unfold planCreate, planAttribute; simpl.
  change (Schema !! "separator")
    with (Some {| Kind := StringAttribute; Optional := true;
                  Computed := true; Default := Some "-";
                  PlanModifiers := [RequiresReplace] |}).
  destruct (Separator config); simpl; congruence.
Qed.

(** *** Claims *)

(** C1. For every Create request the name stored as the resource's id is
    the lower-cased word selected from the corpus when the prefix is empty,
    and prefix, separator and lower-cased word in that order, with prefix
    and separator unchanged, when the prefix is not empty. *)
Theorem Create_id_is_prefixed_lowercased_word
  (e : Entropy) (req : CreateRequest) (w : World) :
  corpus w <> [] ->
  exists word,
    selectWord (corpus w) (ensureNonDeterministic e (rng w)) = Some word /\
    word ∈ corpus w /\
    exists name resp w',
      Create e req newCreateResponse w = Ok resp w' /\
      storedID resp = Some name /\
      (ValueString (Prefix (CreatePlan req)) = "" ->
       name = ToLower word) /\
      (ValueString (Prefix (CreatePlan req)) <> "" ->
       name = ValueString (Prefix (CreatePlan req))
                +:+ ValueString (Separator (CreatePlan req))
                +:+ ToLower word).
Proof.
  intros Hne.
  destruct (selectWord_nonempty (corpus w)
              (ensureNonDeterministic e (rng w)) Hne) as [word Hsel].
  exists word. split; [exact Hsel|]. split; [eapply selectWord_elem, Hsel|].
  eexists _, _, _. split; [apply (Create_selected e req w word Hsel)|].
  unfold storedID, stateAfterCreate; simpl. split; [reflexivity|].
  split; intros Hp.
  - rewrite (eqb_empty_true _ Hp); reflexivity.
  - rewrite (eqb_empty_false _ Hp); reflexivity.
Qed.

Lemma Create_id_is_prefixed_lowercased_word_witness :
  corpus demoWorld <> [] /\
  exists word,
    selectWord (corpus demoWorld)
      (ensureNonDeterministic demoEntropy (rng demoWorld)) = Some word /\
    word ∈ corpus demoWorld /\
    exists name resp w',
      Create demoEntropy (mkCreateRequest (planCreate demoConfig))
        newCreateResponse demoWorld = Ok resp w' /\
      storedID resp = Some name /\
      (ValueString (Prefix (planCreate demoConfig)) = "" ->
       name = ToLower word) /\
      (ValueString (Prefix (planCreate demoConfig)) <> "" ->
       name = ValueString (Prefix (planCreate demoConfig))
                +:+ ValueString (Separator (planCreate demoConfig))
                +:+ ToLower word).
Proof.
  split; [discriminate|].
  apply (Create_id_is_prefixed_lowercased_word demoEntropy
           (mkCreateRequest (planCreate demoConfig)) demoWorld).
  discriminate.
Defined.

(** C2, as the code has it. The word part of every generated name is
    lower-case whatever the casing of the corpus, and so is the whole name
    when the prefix is empty; a non-empty prefix and the separator are
    prepended unchanged, so the name is then lower-case exactly when prefix
    and separator are. *)
Theorem Create_id_lowercase_up_to_prefix
  (e : Entropy) (req : CreateRequest) (w : World) :
  corpus w <> [] ->
  exists name,
    createdName e req w = Some name /\
    (ValueString (Prefix (CreatePlan req)) = "" -> isLower name = true) /\
    (ValueString (Prefix (CreatePlan req)) <> "" ->
     (exists lowered,
        isLower lowered = true /\
        name = ValueString (Prefix (CreatePlan req))
                 +:+ ValueString (Separator (CreatePlan req)) +:+ lowered) /\
     isLower name
     = isLower (ValueString (Prefix (CreatePlan req)))
       && isLower (ValueString (Separator (CreatePlan req)))).
Proof.
  intros Hne.
  destruct (selectWord_nonempty (corpus w)
              (ensureNonDeterministic e (rng w)) Hne) as [word Hsel].
  eexists. split; [apply (storedID_selected e req w word Hsel)|].
  split; intros Hp.
  - rewrite (eqb_empty_true _ Hp). apply ToLower_isLower.
  - rewrite (eqb_empty_false _ Hp). split.
    + exists (ToLower word). split; [apply ToLower_isLower | reflexivity].
    + rewrite !isLower_append, ToLower_isLower, andb_true_r. reflexivity.
Qed.

Lemma Create_id_lowercase_up_to_prefix_witness :
  corpus demoWorld <> [] /\
  exists name,
    createdName demoEntropy (mkCreateRequest (planCreate bareConfig)) demoWorld
    = Some name /\
    (ValueString (Prefix (planCreate bareConfig)) = "" ->
     isLower name = true) /\
    (ValueString (Prefix (planCreate bareConfig)) <> "" ->
     (exists lowered,
        isLower lowered = true /\
        name = ValueString (Prefix (planCreate bareConfig))
                 +:+ ValueString (Separator (planCreate bareConfig))
                 +:+ lowered) /\
     isLower name
     = isLower (ValueString (Prefix (planCreate bareConfig)))
       && isLower (ValueString (Separator (planCreate bareConfig)))).
Proof.
  split; [discriminate|].
  apply (Create_id_lowercase_up_to_prefix demoEntropy
           (mkCreateRequest (planCreate bareConfig)) demoWorld).
  discriminate.
Defined.

(** C2 as stated fails: with the prefix [HMS] the stored name keeps the
    upper-case prefix in front of the lower-cased word. *)
Lemma Create_id_uppercase_prefix_counterexample :
  createdName demoEntropy (mkCreateRequest (planCreate demoConfig)) demoWorld
  = Some "HMS-sleeper service" /\
  isLower "HMS-sleeper service" = false.
Proof. split; reflexivity. Qed.


(** C3. With an empty corpus [Generate] fails with [EmptyCorpus] and
    returns no string at all, the empty string included; the failure
    reaches the caller of [Create], which stores no name. *)
Theorem Generate_empty_corpus_fails
  (e : Entropy) (separator : string) (req : CreateRequest) (w : World) :
  corpus w = [] ->
  (exists w', Generate separator w = Fail EmptyCorpus w') /\
  (forall name w', Generate separator w <> Ok name w') /\
  (exists w', Create e req newCreateResponse w = Fail EmptyCorpus w') /\
  createdName e req w = None.
Proof.
  intros Hc. split; [|split; [|split]].
  - eexists. apply Generate_empty, Hc.
  - intros name w'. rewrite Generate_empty by exact Hc. discriminate.
  - eexists. apply Create_empty, Hc.
  - unfold createdName. rewrite Create_empty by exact Hc. reflexivity.
Qed.

Lemma Generate_empty_corpus_fails_witness :
  corpus emptyWorld = [] /\
  (exists w', Generate "-" emptyWorld = Fail EmptyCorpus w') /\
  (forall name w', Generate "-" emptyWorld <> Ok name w') /\
  (exists w',
     Create demoEntropy (mkCreateRequest (planCreate demoConfig))
       newCreateResponse emptyWorld = Fail EmptyCorpus w') /\
  createdName demoEntropy (mkCreateRequest (planCreate demoConfig)) emptyWorld
  = None.
Proof.
  split; [reflexivity|].
  apply (Generate_empty_corpus_fails demoEntropy "-"
           (mkCreateRequest (planCreate demoConfig)) emptyWorld).
  reflexivity.
Defined.



Lemma Create_world (e : Entropy) (req : CreateRequest) (w : World) :
  corpus (worldOf (Create e req newCreateResponse w)) = corpus w /\
  (rng (worldOf (Create e req newCreateResponse w))
   = ensureNonDeterministic e (rng w)
   \/ rng (worldOf (Create e req newCreateResponse w))
      = advance (ensureNonDeterministic e (rng w))).
Proof.
  destruct (corpus w) as [|first rest] eqn:Hc.
  - rewrite Create_empty by exact Hc. simpl. split; [exact Hc | by left].
  - destruct (selectWord_nonempty (corpus w)
                (ensureNonDeterministic e (rng w))) as [word Hsel];
      [rewrite Hc; discriminate|].
    rewrite (Create_selected e req w word Hsel). simpl.
    split; [exact Hc | by right].
Qed.

Lemma Create_after_initializer (e0 e : Entropy) (req : CreateRequest)
  (w : World) :
  rng (worldOf (Create e req newCreateResponse
                  (worldOf (NonDeterministicMode e0 w))))
  = rng (worldOf (Generate (ValueString (Separator (CreatePlan req)))
                    (worldOf (NonDeterministicMode e0 w)))).
Proof.
  set (w0 := worldOf (NonDeterministicMode e0 w)).
  assert (Hnoop : ensureNonDeterministic e (rng w0) = rng w0)
    by apply ensureNonDeterministic_twice.
  destruct (corpus w0) as [|first rest] eqn:Hc.
  - rewrite Create_empty, Generate_empty by exact Hc. simpl. exact Hnoop.
  - destruct (selectWord_nonempty (corpus w0) (rng w0)) as [word Hsel];
      [rewrite Hc; discriminate|].
    rewrite (Generate_selected _ w0 word Hsel).
    rewrite <- Hnoop in Hsel.
    rewrite (Create_selected e req w0 word Hsel). simpl.
    rewrite ensureNonDeterministic_twice. reflexivity.
Qed.

Lemma initializeMany_seeded (readings : list Entropy) (w : World) :
  nonDeterministic (rng w) = true ->
  rng (initializeMany readings w) = rng w /\
  corpus (initializeMany readings w) = corpus w.
Proof.
  revert w. induction readings as [|e rest IH]; intros w Hw.
  - split; reflexivity.
  - change (initializeMany (e :: rest) w)
      with (initializeMany rest (worldOf (NonDeterministicMode e w))).
    destruct (IH (worldOf (NonDeterministicMode e w))) as [Hr Hc].
    + simpl. apply ensureNonDeterministic_seeded.
    + rewrite Hr, Hc. simpl.
      rewrite (ensureNonDeterministic_noop e (rng w) Hw).
      split; reflexivity.
Qed.

(** C5, as the code has it. With the same corpus, the same state of the
    random source, the same separator and the same prefix, two Create
    requests store the same name, whatever else differs between them
    (keepers, planned id, record of earlier calls), provided the source has
    been initialised already or both requests read the same entropy.
    Create leaves the corpus unchanged and, past the seeding its
    initializer may do, moves the source by its position only; the
    generator alone changes nothing but that position. *)
Theorem Create_deterministic
  (e1 e2 : Entropy) (req1 req2 : CreateRequest) (w1 w2 : World) :
  corpus w1 = corpus w2 ->
  rng w1 = rng w2 ->
  nonDeterministic (rng w1) = true \/ e1 = e2 ->
  ValueString (Separator (CreatePlan req1))
  = ValueString (Separator (CreatePlan req2)) ->
  ValueString (Prefix (CreatePlan req1))
  = ValueString (Prefix (CreatePlan req2)) ->
  createdName e1 req1 w1 = createdName e2 req2 w2 /\
  rng (worldOf (Create e1 req1 newCreateResponse w1))
  = rng (worldOf (Create e2 req2 newCreateResponse w2)) /\
  corpus (worldOf (Create e1 req1 newCreateResponse w1)) = corpus w1 /\
  sequence (rng (worldOf (Create e1 req1 newCreateResponse w1)))
  = sequence (ensureNonDeterministic e1 (rng w1)) /\
  nonDeterministic (rng (worldOf (Create e1 req1 newCreateResponse w1)))
  = nonDeterministic (ensureNonDeterministic e1 (rng w1)) /\
  (forall separator w,
     corpus (worldOf (Generate separator w)) = corpus w /\
     sequence (rng (worldOf (Generate separator w))) = sequence (rng w) /\
     nonDeterministic (rng (worldOf (Generate separator w)))
     = nonDeterministic (rng w)).
Proof.
  intros Hc Hr Hseed Hsep Hpre.
  assert (Hens : ensureNonDeterministic e1 (rng w1)
                 = ensureNonDeterministic e2 (rng w2)).
  { rewrite <- Hr. destruct Hseed as [Hs | ->]; [|reflexivity].
    rewrite !ensureNonDeterministic_noop by exact Hs. reflexivity. }
  split; [|split; [|split; [|split; [|split]]]].
  - unfold createdName.
    destruct (corpus w1) as [|first rest] eqn:Hc1.
    + rewrite !Create_empty by congruence. reflexivity.
    + destruct (selectWord_nonempty (corpus w1)
                  (ensureNonDeterministic e1 (rng w1))) as [word Hsel];
        [rewrite Hc1; discriminate|].
      rewrite (Create_selected e1 req1 w1 word Hsel).
      rewrite Hc1, Hc, Hens in Hsel.
      rewrite (Create_selected e2 req2 w2 word Hsel).
      unfold stateAfterCreate; simpl. rewrite Hsep, Hpre. reflexivity.
  - destruct (corpus w1) as [|first rest] eqn:Hc1.
    + rewrite !Create_empty by congruence. simpl. exact Hens.
    + destruct (selectWord_nonempty (corpus w1)
                  (ensureNonDeterministic e1 (rng w1))) as [word Hsel];
        [rewrite Hc1; discriminate|].
      rewrite (Create_selected e1 req1 w1 word Hsel).
      rewrite Hc1, Hc, Hens in Hsel.
      rewrite (Create_selected e2 req2 w2 word Hsel).
      simpl. rewrite Hens. reflexivity.
  - apply Create_world.
  - destruct (Create_world e1 req1 w1) as [_ [-> | ->]]; reflexivity.
  - destruct (Create_world e1 req1 w1) as [_ [-> | ->]]; reflexivity.
  - intros separator w. apply Generate_frame.
Qed.


Lemma Create_deterministic_witness :
  corpus seededWorld = corpus seededWorldLater /\
  rng seededWorld = rng seededWorldLater /\
  (nonDeterministic (rng seededWorld) = true \/ demoEntropy = otherEntropy) /\
  ValueString (Separator (planCreate demoConfig))
  = ValueString (Separator (planCreate keptConfig)) /\
  ValueString (Prefix (planCreate demoConfig))
  = ValueString (Prefix (planCreate keptConfig)) /\
  createdName demoEntropy (mkCreateRequest (planCreate demoConfig))
    seededWorld
  = createdName otherEntropy (mkCreateRequest (planCreate keptConfig))
      seededWorldLater.
Proof.
  assert (Hseed : nonDeterministic (rng seededWorld) = true
                  \/ demoEntropy = otherEntropy) by (left; reflexivity).
  split; [reflexivity|]. split; [reflexivity|]. split; [exact Hseed|].
  split; [reflexivity|]. split; [reflexivity|].
  apply (Create_deterministic demoEntropy otherEntropy
           (mkCreateRequest (planCreate demoConfig))
           (mkCreateRequest (planCreate keptConfig))
           seededWorld seededWorldLater);
    [reflexivity | reflexivity | exact Hseed | reflexivity | reflexivity].
Defined.

(** C5 as stated fails: on a source that has not been initialised, Create
    seeds it from the entropy of the process first, so two requests with
    the same state of the source, the same separator and the same prefix
    store different names, and more than the position of the source has
    changed afterwards. *)
Lemma Create_unseeded_source_counterexample :
  nonDeterministic (rng demoWorld) = false /\
  createdName demoEntropy (mkCreateRequest (planCreate demoConfig)) demoWorld
  = Some "HMS-sleeper service" /\
  createdName otherEntropy (mkCreateRequest (planCreate demoConfig)) demoWorld
  = Some "HMS-mistake not" /\
  nonDeterministic
    (rng (worldOf (Create demoEntropy
                     (mkCreateRequest (planCreate demoConfig))
                     newCreateResponse demoWorld))) = true /\
  sequence
    (rng (worldOf (Create demoEntropy
                     (mkCreateRequest (planCreate demoConfig))
                     newCreateResponse demoWorld))) 0
  <> sequence (rng demoWorld) 0.
Proof. repeat split; try reflexivity. discriminate. Qed.

(** C6. The initializer is idempotent. After its first call the source is
    non-deterministic; any further call, and any run of further calls,
    leaves the source (and the corpus) as the first call left it; the
    source is non-deterministic after every Create request; and in a
    process where the initializer has run, a Create request moves the
    source exactly as the generator alone does, so the call at its start
    is a no-op. *)
Theorem NonDeterministicMode_idempotent
  (e0 e : Entropy) (later : list Entropy) (req : CreateRequest) (w : World) :
  nonDeterministic (rng (worldOf (NonDeterministicMode e0 w))) = true /\
  rng (worldOf (NonDeterministicMode e
                  (worldOf (NonDeterministicMode e0 w))))
  = rng (worldOf (NonDeterministicMode e0 w)) /\
  rng (initializeMany later (worldOf (NonDeterministicMode e0 w)))
  = rng (worldOf (NonDeterministicMode e0 w)) /\
  corpus (initializeMany later (worldOf (NonDeterministicMode e0 w)))
  = corpus w /\
  nonDeterministic (rng (worldOf (Create e req newCreateResponse w)))
  = true /\
  rng (worldOf (Create e req newCreateResponse
                  (worldOf (NonDeterministicMode e0 w))))
  = rng (worldOf (Generate (ValueString (Separator (CreatePlan req)))
                    (worldOf (NonDeterministicMode e0 w)))).
Proof.
  assert (Hseeded :
            nonDeterministic (rng (worldOf (NonDeterministicMode e0 w)))
            = true) by apply ensureNonDeterministic_seeded.
  split; [exact Hseeded|].
  split; [apply ensureNonDeterministic_twice|].
  destruct (initializeMany_seeded later _ Hseeded) as [Hr Hc].
  split; [exact Hr|]. split; [exact Hc|].
  split; [|apply Create_after_initializer].
  destruct (Create_world e req w) as [_ [-> | ->]];
    apply ensureNonDeterministic_seeded.
Qed.

(** C7. A configuration without a separator is planned with the schema's
    default ["-"], and its Create request uses ["-"] throughout: the
    generator is called with it, it is the separator stored in state, and
    it stands between a non-empty prefix and the word in the id. The
    request is the request of the same configuration with separator
    ["-"] and behaves exactly like it on every response. *)
Theorem separator_defaults_to_dash
  (e : Entropy) (keepers : types.Map) (prefix : types.String) (w : World) :
  corpus w <> [] ->
  Default <$> (Schema !! "separator") = Some (Some "-") /\
  Separator (planCreate (mkModel StringNull keepers prefix StringNull))
  = StringValue "-" /\
  (exists word resp w' st,
     selectWord (corpus w) (ensureNonDeterministic e (rng w)) = Some word /\
     Create e
       (mkCreateRequest
          (planCreate (mkModel StringNull keepers prefix StringNull)))
       newCreateResponse w = Ok resp w' /\
     State resp = Some st /\
     Separator st = StringValue "-" /\
     (ValueString prefix = "" -> ID st = StringValue (ToLower word)) /\
     (ValueString prefix <> "" ->
      ID st = StringValue (ValueString prefix +:+ "-" +:+ ToLower word)) /\
     calls w'
     = (calls w ++ [CalledNonDeterministicMode; CalledGenerate "-"])%list) /\
  (forall resp,
     Create e
       (mkCreateRequest
          (planCreate (mkModel StringNull keepers prefix StringNull))) resp w
     = Create e
         (mkCreateRequest
            (planCreate (mkModel StringNull keepers prefix
                           (StringValue "-")))) resp w).
Proof.
  intros Hne.
  assert (Hplan :
            planCreate (mkModel StringNull keepers prefix StringNull)
            = planCreate (mkModel StringNull keepers prefix
                            (StringValue "-"))) by reflexivity.
  assert (Hdash :
            planCreate (mkModel StringNull keepers prefix StringNull)
            = mkModel StringUnknown keepers prefix (StringValue "-"))
    by (destruct prefix; reflexivity).
  split; [reflexivity|]. split; [reflexivity|].
  split; [|intros resp; rewrite Hplan; reflexivity].
  rewrite Hdash.
  destruct (selectWord_nonempty (corpus w)
              (ensureNonDeterministic e (rng w)) Hne) as [word Hsel].
  eexists word, _, _, _. split; [exact Hsel|].
  split; [apply (Create_selected e _ w word Hsel)|].
  split; [reflexivity|].
  unfold stateAfterCreate, worldAfterCreate; simpl.
  split; [reflexivity|].
  split; [intros Hp; rewrite (eqb_empty_true _ Hp); reflexivity|].
  split; [intros Hp; rewrite (eqb_empty_false _ Hp); reflexivity|].
  rewrite <- app_assoc. reflexivity.
Qed.

Lemma separator_defaults_to_dash_witness :
  corpus demoWorld <> [] /\
  Separator (planCreate (mkModel StringNull MapNull (StringValue "HMS")
                           StringNull))
  = StringValue "-" /\
  createdName demoEntropy
    (mkCreateRequest
       (planCreate (mkModel StringNull MapNull (StringValue "HMS")
                      StringNull))) demoWorld
  = Some "HMS-sleeper service".
Proof.
  split; [discriminate|].
  pose proof (separator_defaults_to_dash demoEntropy MapNull
                (StringValue "HMS") demoWorld) as Hdash.
  destruct Hdash as [_ [Hsep _]]; [discriminate|].
  split; [exact Hsep | reflexivity].
Defined.

(** C8. After a successful Create request whose planned prefix is the
    empty string or absent, the prefix stored in state is null, never the
    empty string; when the planned prefix is not empty, the stored prefix
    is the planned prefix. *)
Theorem Create_stores_null_for_empty_prefix
  (e : Entropy) (req : CreateRequest) (w : World) :
  corpus w <> [] ->
  exists resp w' st,
    Create e req newCreateResponse w = Ok resp w' /\
    State resp = Some st /\
    (ValueString (Prefix (CreatePlan req)) = "" ->
     Prefix st = StringNull /\ Prefix st <> StringValue "") /\
    (ValueString (Prefix (CreatePlan req)) <> "" ->
     Prefix st = Prefix (CreatePlan req)).
Proof.
  intros Hne.
  destruct (selectWord_nonempty (corpus w)
              (ensureNonDeterministic e (rng w)) Hne) as [word Hsel].
  eexists _, _, _. split; [apply (Create_selected e req w word Hsel)|].
  split; [reflexivity|].
  unfold stateAfterCreate; simpl. split; intros Hp.
  - rewrite (eqb_empty_true _ Hp). split; [reflexivity | discriminate].
  - rewrite (eqb_empty_false _ Hp).
    destruct (Prefix (CreatePlan req)) as [| |p]; simpl in *;
      [congruence | congruence | reflexivity].
Qed.

Lemma Create_stores_null_for_empty_prefix_witness :
  corpus demoWorld <> [] /\
  exists resp w' st,
    Create demoEntropy (mkCreateRequest (planCreate bareConfig))
      newCreateResponse demoWorld = Ok resp w' /\
    State resp = Some st /\
    (ValueString (Prefix (planCreate bareConfig)) = "" ->
     Prefix st = StringNull /\ Prefix st <> StringValue "") /\
    (ValueString (Prefix (planCreate bareConfig)) <> "" ->
     Prefix st = Prefix (planCreate bareConfig)).
Proof.
  split; [discriminate|].
  apply (Create_stores_null_for_empty_prefix demoEntropy
           (mkCreateRequest (planCreate bareConfig)) demoWorld).
  discriminate.
Defined.

(** C9. A successful Create request writes the keepers and the separator
    of its plan back unchanged: the state differs from the plan in the id
    and the prefix at most. The plan of a Create request has a known
    separator, the schema giving the attribute a static default. *)
Theorem Create_keeps_keepers_and_separator
  (e : Entropy) (req : CreateRequest) (w : World) :
  IsKnown (Separator (CreatePlan req)) = true ->
  corpus w <> [] ->
  exists resp w' st,
    Create e req newCreateResponse w = Ok resp w' /\
    State resp = Some st /\
    Keepers st = Keepers (CreatePlan req) /\
    Separator st = Separator (CreatePlan req) /\
    st = setID (ID st) (setPrefix (Prefix st) (CreatePlan req)).
Proof.
  intros Hknown Hne.
  destruct (selectWord_nonempty (corpus w)
              (ensureNonDeterministic e (rng w)) Hne) as [word Hsel].
  eexists _, _, _. split; [apply (Create_selected e req w word Hsel)|].
  split; [reflexivity|].
  unfold stateAfterCreate, setID, setPrefix; simpl.
  destruct (Separator (CreatePlan req)) as [| |sep]; simpl in *;
    [discriminate | discriminate |].
  repeat split; reflexivity.
Qed.

Lemma Create_keeps_keepers_and_separator_witness :
  IsKnown (Separator (planCreate keptConfig)) = true /\
  corpus demoWorld <> [] /\
  exists resp w' st,
    Create demoEntropy (mkCreateRequest (planCreate keptConfig))
      newCreateResponse demoWorld = Ok resp w' /\
    State resp = Some st /\
    Keepers st = Keepers (planCreate keptConfig) /\
    Separator st = Separator (planCreate keptConfig) /\
    st = setID (ID st) (setPrefix (Prefix st) (planCreate keptConfig)).
Proof.
  split; [reflexivity|]. split; [discriminate|].
  apply (Create_keeps_keepers_and_separator demoEntropy
           (mkCreateRequest (planCreate keptConfig)) demoWorld);
    [reflexivity | discriminate].
Defined.

(** C10. Update copies the planned model, id, keepers, prefix and
    separator alike, into state and leaves the process-wide state as it
    was, so that no call into the generator is recorded; Read and Delete
    return what they were handed and leave the process-wide state alone
    as well. *)
Theorem Update_copies_plan
  (update : UpdateRequest) (read : ReadRequest) (delete : DeleteRequest)
  (w : World) :
  Update update (newUpdateResponse update) w
  = Ok {| State := Some (UpdatePlan update); Diagnostics := [] |} w /\
  calls (worldOf (Update update (newUpdateResponse update) w)) = calls w /\
  rng (worldOf (Update update (newUpdateResponse update) w)) = rng w /\
  Read read (newReadResponse read) w = Ok (newReadResponse read) w /\
  Delete delete (newDeleteResponse delete) w
  = Ok (newDeleteResponse delete) w.
Proof. repeat split; reflexivity. Qed.

End providerFacts.

(** ** Further properties of the resource *)

Module providerExtras.

Import types GoStrings provider GoStringsFacts spaceshipsFacts providerFacts.

Lemma append_cancel_r (a b s : string) : a +:+ s = b +:+ s -> a = b.
Proof.
  revert b. induction a as [|c a IH]; intros [|d b] H.
  - reflexivity.
  - apply (f_equal String.length) in H.
    rewrite append_nil, append_cons in H; simpl in H.
    rewrite length_append in H. lia.
  - apply (f_equal String.length) in H.
    rewrite append_nil, append_cons in H; simpl in H.
    rewrite length_append in H. lia.
  - rewrite !append_cons in H. injection H as -> H.
    f_equal. apply IH, H.
Qed.

Lemma appendDiagnostics_nil (resp : Response) : appendDiagnostics resp [] = resp.
Proof.
  destruct resp as [st ds]. unfold appendDiagnostics, diag.Append; simpl.
  rewrite app_nil_r. reflexivity.
Qed.

(** [Create] on a response without error diagnostics, in terms of the
    generator run after the initializer. *)
Lemma Create_unfold (e : Entropy) (req : CreateRequest) (resp : CreateResponse)
  (w : World) :
  diag.HasError (Diagnostics resp) = false ->
  Create e req resp w
  = match Generate (ValueString (Separator (CreatePlan req)))
            (worldOf (NonDeterministicMode e w)) with
    | Ok generated w' =>
        Ok {| State :=
                Some {| ID := StringValue
                             (if String.eqb
                                   (ValueString (Prefix (CreatePlan req))) ""
                              then ToLower generated
                              else ValueString (Prefix (CreatePlan req))
                                   +:+ ValueString (Separator (CreatePlan req))
                                   +:+ ToLower generated);
                        Keepers := Keepers (CreatePlan req);
                        Prefix :=
                          if String.eqb
                               (ValueString (Prefix (CreatePlan req))) ""
                          then StringNull
                          else StringValue
                                 (ValueString (Prefix (CreatePlan req)));
                        Separator :=
                          StringValue
                            (ValueString (Separator (CreatePlan req))) |};
              Diagnostics := Diagnostics resp |} w'
    | Fail err w' => Fail err w'
    end.
Proof.
  intros Hok.
  unfold Create, mbind, M_bind, bind, NonDeterministicMode, PlanGet.
  cbn [worldOf]. rewrite appendDiagnostics_nil, Hok.
  destruct (Generate _ _) as [generated w'|err w']; [|reflexivity].
  unfold StateSet, Sprintf3, mret, M_ret, ret.
  destruct (String.eqb _ ""); cbn;
    rewrite appendDiagnostics_nil; reflexivity.
Qed.

(** X1. The type name [Metadata] reports is the provider's type name
    followed by [_culture_ship], whatever the response held before; it is
    never the provider's type name itself, and resources of providers with
    different type names never share a type name. *)
Theorem Metadata_type_name
  (req req' : MetadataRequest) (resp resp' : MetadataResponse) :
  TypeName (Metadata req resp) = ProviderTypeName req +:+ "_culture_ship" /\
  String.length (TypeName (Metadata req resp))
  = String.length (ProviderTypeName req) + 13 /\
  (TypeName (Metadata req resp) = TypeName (Metadata req' resp') ->
   ProviderTypeName req = ProviderTypeName req').
Proof.
  unfold Metadata; simpl. split; [reflexivity|]. split.
  - rewrite length_append. reflexivity.
  - apply append_cancel_r.
Qed.

(** X2. When the response already carries an error diagnostic, [Create]
    returns it as it is: no state is set, the generator is not called and
    the random source is not moved; only the initializer has run. *)
Theorem Create_stops_on_error_diagnostics
  (e : Entropy) (req : CreateRequest) (resp : CreateResponse) (w : World) :
  diag.HasError (Diagnostics resp) = true ->
  Create e req resp w = Ok resp (worldOf (NonDeterministicMode e w)) /\
  calls (worldOf (Create e req resp w))
  = (calls w ++ [CalledNonDeterministicMode])%list /\
  rng (worldOf (Create e req resp w)) = ensureNonDeterministic e (rng w).
Proof.
  intros Herr.
  assert (Hrun : Create e req resp w
                 = Ok resp (worldOf (NonDeterministicMode e w))).
  { unfold Create, mbind, M_bind, bind, NonDeterministicMode, PlanGet.
    cbn [worldOf]. rewrite appendDiagnostics_nil, Herr. reflexivity. }
  rewrite Hrun. repeat split; reflexivity.
Qed.

Lemma Create_stops_on_error_diagnostics_witness :
  diag.HasError (Diagnostics failedResponse) = true /\
  Create demoEntropy (mkCreateRequest (planCreate demoConfig))
    failedResponse demoWorld
  = Ok failedResponse (worldOf (NonDeterministicMode demoEntropy demoWorld)) /\
  calls (worldOf (Create demoEntropy (mkCreateRequest (planCreate demoConfig))
                    failedResponse demoWorld))
  = (calls demoWorld ++ [CalledNonDeterministicMode])%list /\
  rng (worldOf (Create demoEntropy (mkCreateRequest (planCreate demoConfig))
                  failedResponse demoWorld))
  = ensureNonDeterministic demoEntropy (rng demoWorld).
Proof.
  split; [reflexivity|].
  apply (Create_stops_on_error_diagnostics demoEntropy
           (mkCreateRequest (planCreate demoConfig)) failedResponse demoWorld).
  reflexivity.
Defined.

(** X3. A [Create] request that gets past the diagnostics check calls into
    the package exactly twice: the initializer first, then the generator
    with the separator of the plan, whether the generator returns or
    fails. *)
Theorem Create_calls_initializer_then_generator
  (e : Entropy) (req : CreateRequest) (resp : CreateResponse) (w : World) :
  diag.HasError (Diagnostics resp) = false ->
  calls (worldOf (Create e req resp w))
  = (calls w
       ++ [CalledNonDeterministicMode;
           CalledGenerate (ValueString (Separator (CreatePlan req)))])%list.
Proof.
  intros Hok. rewrite (Create_unfold e req resp w Hok).
  pose proof (Generate_logged (ValueString (Separator (CreatePlan req)))
                (worldOf (NonDeterministicMode e w))) as Hlog.
  destruct (Generate _ _) as [generated w'|err w']; simpl in *;
    rewrite Hlog, <- app_assoc; reflexivity.
Qed.

Lemma Create_calls_initializer_then_generator_witness :
  diag.HasError (Diagnostics warnedResponse) = false /\
  calls (worldOf (Create demoEntropy (mkCreateRequest (planCreate demoConfig))
                    warnedResponse emptyWorld))
  = (calls emptyWorld
       ++ [CalledNonDeterministicMode;
           CalledGenerate
             (ValueString (Separator (planCreate demoConfig)))])%list.
Proof.
  split; [reflexivity|].
  apply (Create_calls_initializer_then_generator demoEntropy
           (mkCreateRequest (planCreate demoConfig)) warnedResponse
           emptyWorld).
  reflexivity.
Defined.

(** X4. A [Create] request that gets past the diagnostics check replaces
    whatever state the response held by the state it computes, the same
    one it computes on a fresh response, and hands the diagnostics of the
    response back unchanged. *)
Theorem Create_overwrites_state_keeps_diagnostics
  (e : Entropy) (req : CreateRequest) (resp : CreateResponse) (w : World) :
  diag.HasError (Diagnostics resp) = false ->
  corpus w <> [] ->
  exists st w',
    Create e req resp w
    = Ok {| State := Some st; Diagnostics := Diagnostics resp |} w' /\
    Create e req newCreateResponse w
    = Ok {| State := Some st; Diagnostics := [] |} w'.
Proof.
  intros Hok Hne.
  destruct (selectWord_nonempty (corpus w)
              (ensureNonDeterministic e (rng w)) Hne) as [word Hsel].
  rewrite (Create_unfold e req resp w Hok).
  rewrite (Create_unfold e req newCreateResponse w) by reflexivity.
  rewrite (Generate_selected _ (worldOf (NonDeterministicMode e w)) word)
    by exact Hsel.
  eexists _, _. split; reflexivity.
Qed.

Lemma Create_overwrites_state_keeps_diagnostics_witness :
  diag.HasError (Diagnostics warnedResponse) = false /\
  corpus demoWorld <> [] /\
  exists st w',
    Create demoEntropy (mkCreateRequest (planCreate demoConfig))
      warnedResponse demoWorld
    = Ok {| State := Some st; Diagnostics := Diagnostics warnedResponse |}
         w' /\
    Create demoEntropy (mkCreateRequest (planCreate demoConfig))
      newCreateResponse demoWorld
    = Ok {| State := Some st; Diagnostics := [] |} w'.
Proof.
  split; [reflexivity|]. split; [discriminate|].
  apply (Create_overwrites_state_keeps_diagnostics demoEntropy
           (mkCreateRequest (planCreate demoConfig)) warnedResponse
           demoWorld);
    [reflexivity | discriminate].
Defined.

(** X5. The state a successful [Create] request stores holds no unknown
    string: id and separator are known values and the prefix is null or a
    known non-empty string, also when the plan had its prefix or separator
    null or unknown; the keepers are those of the plan. *)
Theorem Create_state_has_no_unknown
  (e : Entropy) (req : CreateRequest) (w : World) :
  corpus w <> [] ->
  exists resp w' st,
    Create e req newCreateResponse w = Ok resp w' /\
    State resp = Some st /\
    IsKnown (ID st) = true /\
    IsKnown (Separator st) = true /\
    (Prefix st = StringNull
     \/ exists p, p <> "" /\ Prefix st = StringValue p) /\
    Keepers st = Keepers (CreatePlan req).
Proof.
  intros Hne.
  destruct (selectWord_nonempty (corpus w)
              (ensureNonDeterministic e (rng w)) Hne) as [word Hsel].
  eexists _, _, _. split; [apply (Create_selected e req w word Hsel)|].
  split; [reflexivity|].
  unfold stateAfterCreate; simpl.
  split; [reflexivity|]. split; [reflexivity|]. split; [|reflexivity].
  destruct (String.eqb (ValueString (Prefix (CreatePlan req))) "") eqn:Hp.
  - left; reflexivity.
  - right. eexists. split; [|reflexivity]. apply String.eqb_neq, Hp.
Qed.

Lemma Create_state_has_no_unknown_witness :
  corpus demoWorld <> [] /\
  exists resp w' st,
    Create demoEntropy
      (mkCreateRequest (mkModel StringUnknown MapNull StringUnknown
                          StringUnknown))
      newCreateResponse demoWorld = Ok resp w' /\
    State resp = Some st /\
    IsKnown (ID st) = true /\
    IsKnown (Separator st) = true /\
    (Prefix st = StringNull
     \/ exists p, p <> "" /\ Prefix st = StringValue p) /\
    Keepers st = MapNull.
Proof.
  split; [discriminate|].
  apply (Create_state_has_no_unknown demoEntropy
           (mkCreateRequest (mkModel StringUnknown MapNull StringUnknown
                               StringUnknown)) demoWorld).
  discriminate.
Defined.

(** X6. The id a successful [Create] request stores agrees with the prefix
    and the separator stored beside it: it is a lower-case word when the
    stored prefix is null, and otherwise the stored prefix, the stored
    separator and a lower-case word, in that order. *)
Theorem Create_id_matches_stored_prefix
  (e : Entropy) (req : CreateRequest) (w : World) :
  corpus w <> [] ->
  exists resp w' st lowered,
    Create e req newCreateResponse w = Ok resp w' /\
    State resp = Some st /\
    isLower lowered = true /\
    ID st = StringValue
              (match Prefix st with
               | StringValue p => p +:+ ValueString (Separator st) +:+ lowered
               | _ => lowered
               end).
Proof.
  intros Hne.
  destruct (selectWord_nonempty (corpus w)
              (ensureNonDeterministic e (rng w)) Hne) as [word Hsel].
  exists {| State := Some (stateAfterCreate (CreatePlan req) word);
            Diagnostics := [] |},
         (worldAfterCreate e (ValueString (Separator (CreatePlan req))) w),
         (stateAfterCreate (CreatePlan req) word), (ToLower word).
  split; [apply (Create_selected e req w word Hsel)|].
  split; [reflexivity|]. split; [apply ToLower_isLower|].
  unfold stateAfterCreate; simpl.
  destruct (String.eqb _ ""); reflexivity.
Qed.

Lemma Create_id_matches_stored_prefix_witness :
  corpus demoWorld <> [] /\
  exists resp w' st lowered,
    Create demoEntropy (mkCreateRequest (planCreate keptConfig))
      newCreateResponse demoWorld = Ok resp w' /\
    State resp = Some st /\
    isLower lowered = true /\
    ID st = StringValue
              (match Prefix st with
               | StringValue p => p +:+ ValueString (Separator st) +:+ lowered
               | _ => lowered
               end).
Proof.
  split; [discriminate|].
  apply (Create_id_matches_stored_prefix demoEntropy
           (mkCreateRequest (planCreate keptConfig)) demoWorld).
  discriminate.
Defined.

(** X7. [Update] on any response: when the response already carries an
    error diagnostic it is returned as it is, the state it held included;
    otherwise its state becomes the plan and its diagnostics are kept.
    Either way the process-wide state is untouched and the prior state of
    the request plays no part. *)
Theorem Update_on_any_response
  (req : UpdateRequest) (resp : UpdateResponse) (w : World) :
  Update req resp w
  = Ok (if diag.HasError (Diagnostics resp) then resp
        else {| State := Some (UpdatePlan req);
                Diagnostics := Diagnostics resp |}) w.
Proof.
  unfold Update, PlanGet, StateSet. rewrite appendDiagnostics_nil.
  destruct (diag.HasError (Diagnostics resp)); [reflexivity|].
  rewrite appendDiagnostics_nil. reflexivity.
Qed.

(** X8. The plan modifiers of the schema: every attribute a configuration
    may set carries exactly one, [RequiresReplace] for a string attribute
    and [RequiresReplaceIfValuesNotNull] for the map attribute; an
    attribute a configuration cannot set carries [UseStateForUnknown]
    alone. *)
Theorem Schema_plan_modifiers (name : string) (a : Attribute) :
  Schema !! name = Some a ->
  PlanModifiers a
  = if Optional a
    then match Kind a with
         | StringAttribute => [RequiresReplace]
         | MapAttribute => [RequiresReplaceIfValuesNotNull]
         end
    else [UseStateForUnknown].
Proof.
  unfold Schema. intros Hlook.
  repeat (apply lookup_insert_Some in Hlook as [[_ <-] | [_ Hlook]];
          [reflexivity|]).
  rewrite lookup_empty in Hlook. discriminate Hlook.
Qed.

Lemma Schema_plan_modifiers_witness :
  Schema !! "keepers"
  = Some {| Kind := MapAttribute; Optional := true; Computed := false;
            Default := None;
            PlanModifiers := [RequiresReplaceIfValuesNotNull] |} /\
  [RequiresReplaceIfValuesNotNull] = [RequiresReplaceIfValuesNotNull].
Proof.
  split; [reflexivity|].
  apply (Schema_plan_modifiers "keepers"
           {| Kind := MapAttribute; Optional := true; Computed := false;
              Default := None;
              PlanModifiers := [RequiresReplaceIfValuesNotNull] |}).
  reflexivity.
Defined.

(** X9. The schema declares exactly the attributes the model has fields
    for; each of them is optional or computed, only a computed attribute
    has a default, and [id] is the one attribute a configuration cannot
    set. *)
Theorem Schema_matches_model :
  dom Schema = list_to_set modelFields /\
  forall (name : string) (a : Attribute),
    Schema !! name = Some a ->
    Optional a || Computed a = true /\
    (is_Some (Default a) -> Computed a = true) /\
    (Optional a = false <-> name = "id").
Proof.
  split.
  - unfold Schema, modelFields.
    rewrite !dom_insert_L, dom_empty_L. simpl. set_solver.
  - unfold Schema. intros name a Hlook.
    repeat (apply lookup_insert_Some in Hlook as [[<- <-] | [_ Hlook]];
            [simpl; split; [reflexivity|];
             split;
             [intros [d Hd]; first [reflexivity | discriminate Hd]
             |split; intros H; first [reflexivity | discriminate H]]
            |]).
    rewrite lookup_empty in Hlook. discriminate Hlook.
Qed.

(** X10. A separator the configuration gives is planned and used as it
    is, the empty string included: only an absent separator takes the
    default. With a non-empty prefix the name is prefix, that separator
    and the lower-cased selected word. *)
Theorem explicit_separator_is_kept
  (e : Entropy) (keepers : types.Map) (p s : string) (w : World) :
  corpus w <> [] ->
  p <> "" ->
  Separator (planCreate (mkModel StringNull keepers (StringValue p)
                           (StringValue s)))
  = StringValue s /\
  exists word,
    selectWord (corpus w) (ensureNonDeterministic e (rng w)) = Some word /\
    createdName e
      (mkCreateRequest
         (planCreate (mkModel StringNull keepers (StringValue p)
                        (StringValue s)))) w
    = Some (p +:+ s +:+ ToLower word).
Proof.
  intros Hne Hp.
  assert (Hplan :
            planCreate (mkModel StringNull keepers (StringValue p)
                          (StringValue s))
            = mkModel StringUnknown keepers (StringValue p) (StringValue s))
    by reflexivity.
  rewrite Hplan. split; [reflexivity|].
  destruct (selectWord_nonempty (corpus w)
              (ensureNonDeterministic e (rng w)) Hne) as [word Hsel].
  exists word. split; [exact Hsel|].
  rewrite (storedID_selected e _ w word Hsel). simpl.
  rewrite (eqb_empty_false _ Hp). reflexivity.
Qed.

Lemma explicit_separator_is_kept_witness :
  corpus demoWorld <> [] /\
  "HMS" <> "" /\
  Separator (planCreate (mkModel StringNull MapNull (StringValue "HMS")
                           (StringValue "")))
  = StringValue "" /\
  exists word,
    selectWord (corpus demoWorld)
      (ensureNonDeterministic demoEntropy (rng demoWorld)) = Some word /\
    createdName demoEntropy
      (mkCreateRequest
         (planCreate (mkModel StringNull MapNull (StringValue "HMS")
                        (StringValue "")))) demoWorld
    = Some ("HMS" +:+ "" +:+ ToLower word).
Proof.
  split; [discriminate|]. split; [discriminate|].
  apply (explicit_separator_is_kept demoEntropy MapNull "HMS" "" demoWorld);
    discriminate.
Defined.

End providerExtras.
